(** * PPTX.h: the declared surface of the PPTX graphics device

    [src-i386/PPTX.h] holds no function body: inside one [extern "C"]
    block it declares the driver-setup function, the C-level constructor,
    thirteen device callbacks and the [.Call] entry point.  The header is
    embedded as data, one [fundecl] per declaration, in the order and with
    the types and parameter names of the source. *)

From Stdlib Require Import String List ZArith Bool Lia.
From Stdlib Require Import Floats.SpecFloat.
Import ListNotations.
Open Scope string_scope.

(** ** C types, as they are spelled in the declarations *)

Inductive ctype : Type :=
| Tvoid
| Tdouble
| Tint
| Tchar
| Tnamed (name : string)   (* a typedef of the host headers *)
| Tconst (t : ctype)       (* [const t] *)
| Tptr (t : ctype).        (* [t *] *)

Inductive linkage : Type :=
| Static      (* [static]: visible in the translation unit only *)
| External.   (* no storage class inside [extern "C"]: an exported C symbol *)

Record param : Type := mkParam { p_type : ctype; p_name : string }.

Record fundecl : Type := mkFun {
  f_linkage : linkage;
  f_ret     : ctype;
  f_name    : string;
  f_params  : list param
}.

Definition ctype_eq_dec (a b : ctype) : {a = b} + {a <> b}.
Proof. decide equality. apply string_dec. Defined.

Definition ctype_eqb (a b : ctype) : bool :=
  if ctype_eq_dec a b then true else false.

Definition linkage_eqb (a b : linkage) : bool :=
  match a, b with
  | Static, Static | External, External => true
  | _, _ => false
  end.

(** The typedef names the header takes from [Rinternals.h],
    [R_ext/Boolean.h], [R_ext/GraphicsEngine.h] and
    [R_ext/GraphicsDevice.h]. *)
Definition SEXP       : ctype := Tnamed "SEXP".
Definition Rboolean   : ctype := Tnamed "Rboolean".
Definition pDevDesc   : ctype := Tnamed "pDevDesc".
Definition pGEcontext : ctype := Tnamed "pGEcontext".

(** [const char*] is a pointer to constant characters. *)
Definition const_char_ptr : ctype := Tptr (Tconst Tchar).
Definition double_ptr     : ctype := Tptr Tdouble.

Declare Scope decl_scope.
Delimit Scope decl_scope with decl.
Notation "t $ x" := (mkParam t x) (at level 40, no associativity) : decl_scope.

(** ** The declarations of the header, in source order *)

Definition PPTXDeviceDriver : fundecl :=
  mkFun Static Rboolean "PPTXDeviceDriver"
    [ pDevDesc $ "dev"; const_char_ptr $ "filename"; double_ptr $ "width";
      double_ptr $ "height"; double_ptr $ "offx"; double_ptr $ "offy";
      Tdouble $ "ps"; Tint $ "nbplots";
      const_char_ptr $ "fontname"; SEXP $ "env" ]%decl.

Definition GE_PPTXDevice : fundecl :=
  mkFun External Tvoid "GE_PPTXDevice"
    [ const_char_ptr $ "filename"; double_ptr $ "width"; double_ptr $ "height";
      double_ptr $ "offx";
      double_ptr $ "offy"; Tdouble $ "ps"; Tint $ "nbplots";
      const_char_ptr $ "fontfamily" ]%decl.

Definition PPTX_activate : fundecl :=
  mkFun Static Tvoid "PPTX_activate" [ pDevDesc $ "dev" ]%decl.

Definition PPTX_Circle : fundecl :=
  mkFun Static Tvoid "PPTX_Circle"
    [ Tdouble $ "x"; Tdouble $ "y"; Tdouble $ "r"; Tconst pGEcontext $ "gc";
      pDevDesc $ "dev" ]%decl.

Definition PPTX_Line : fundecl :=
  mkFun Static Tvoid "PPTX_Line"
    [ Tdouble $ "x1"; Tdouble $ "y1"; Tdouble $ "x2"; Tdouble $ "y2";
      Tconst pGEcontext $ "gc"; pDevDesc $ "dev" ]%decl.

Definition PPTX_Polyline : fundecl :=
  mkFun Static Tvoid "PPTX_Polyline"
    [ Tint $ "n"; double_ptr $ "x"; double_ptr $ "y"; Tconst pGEcontext $ "gc";
      pDevDesc $ "dev" ]%decl.

Definition PPTX_Polygon : fundecl :=
  mkFun Static Tvoid "PPTX_Polygon"
    [ Tint $ "n"; double_ptr $ "x"; double_ptr $ "y"; Tconst pGEcontext $ "gc";
      pDevDesc $ "dev" ]%decl.

Definition PPTX_Rect : fundecl :=
  mkFun Static Tvoid "PPTX_Rect"
    [ Tdouble $ "x0"; Tdouble $ "y0"; Tdouble $ "x1"; Tdouble $ "y1";
      Tconst pGEcontext $ "gc"; pDevDesc $ "dev" ]%decl.

Definition PPTX_Text : fundecl :=
  mkFun Static Tvoid "PPTX_Text"
    [ Tdouble $ "x"; Tdouble $ "y"; const_char_ptr $ "str"; Tdouble $ "rot";
      Tdouble $ "hadj"; Tconst pGEcontext $ "gc"; pDevDesc $ "dev" ]%decl.

Definition PPTX_NewPage : fundecl :=
  mkFun Static Tvoid "PPTX_NewPage"
    [ Tconst pGEcontext $ "gc"; pDevDesc $ "dev" ]%decl.

Definition PPTX_Close : fundecl :=
  mkFun Static Tvoid "PPTX_Close" [ pDevDesc $ "dev" ]%decl.

Definition PPTX_Clip : fundecl :=
  mkFun Static Tvoid "PPTX_Clip"
    [ Tdouble $ "x0"; Tdouble $ "x1"; Tdouble $ "y0"; Tdouble $ "y1";
      pDevDesc $ "dev" ]%decl.

Definition PPTX_MetricInfo : fundecl :=
  mkFun Static Tvoid "PPTX_MetricInfo"
    [ Tint $ "c"; Tconst pGEcontext $ "gc"; double_ptr $ "ascent";
      double_ptr $ "descent"; double_ptr $ "width"; pDevDesc $ "dev" ]%decl.

Definition PPTX_Size : fundecl :=
  mkFun Static Tvoid "PPTX_Size"
    [ double_ptr $ "left"; double_ptr $ "right"; double_ptr $ "bottom";
      double_ptr $ "top"; pDevDesc $ "dev" ]%decl.

Definition PPTX_StrWidth : fundecl :=
  mkFun Static Tdouble "PPTX_StrWidth"
    [ const_char_ptr $ "str"; Tconst pGEcontext $ "gc"; pDevDesc $ "dev" ]%decl.

(* [setDimensions] is commented out in the source and so is not declared. *)

Definition R_PPTX_Device : fundecl :=
  mkFun External SEXP "R_PPTX_Device"
    [ SEXP $ "filename"; SEXP $ "width"; SEXP $ "height"; SEXP $ "offx";
      SEXP $ "offy"; SEXP $ "pointsize"; SEXP $ "fontfamily"; SEXP $ "env" ]%decl.

(** The [extern "C" { ... }] block: every declaration of the header. *)
Definition PPTX_h : list fundecl :=
  [ PPTXDeviceDriver; GE_PPTXDevice; PPTX_activate; PPTX_Circle; PPTX_Line;
    PPTX_Polyline; PPTX_Polygon; PPTX_Rect; PPTX_Text; PPTX_NewPage;
    PPTX_Close; PPTX_Clip; PPTX_MetricInfo; PPTX_Size; PPTX_StrWidth;
    R_PPTX_Device ].

(** ** Reading a declaration *)

(** A type that names the graphics context, with or without [const]. *)
Fixpoint names_context (t : ctype) : bool :=
  match t with
  | Tnamed name => String.eqb name "pGEcontext"
  | Tconst t' => names_context t'
  | _ => false
  end.

Definition param_types (d : fundecl) : list ctype := map p_type (f_params d).
Definition param_names (d : fundecl) : list string := map p_name (f_params d).
Definition arity (d : fundecl) : nat := length (f_params d).

Definition find_param (x : string) (d : fundecl) : option ctype :=
  option_map p_type (find (fun p => String.eqb (p_name p) x) (f_params d)).

Definition find_decl (name : string) (h : list fundecl) : option fundecl :=
  find (fun d => String.eqb (f_name d) name) h.

(** How an argument reaches the callee.  A plain [t*] lets the callee read
    and write the caller's object; [const t*] lets it read only; anything
    else is a copy. *)
Inductive passing : Type :=
| ByValue
| ByPointerToConst
| ByPointer.

Definition passing_of (t : ctype) : passing :=
  match t with
  | Tptr (Tconst _) => ByPointerToConst
  | Tptr _ => ByPointer
  | _ => ByValue
  end.

(** What the caller's variable holds after a call in which the callee
    stores [v] into its parameter: the store reaches the caller only through
    a pointer to non-constant data; a by-value parameter is the callee's own
    copy, and a store through [const t*] is rejected by the compiler. *)
Definition caller_sees {A : Type} (m : passing) (old v : A) : A :=
  match m with
  | ByPointer => v
  | ByPointerToConst | ByValue => old
  end.

Definition is_output (p : param) : bool :=
  match passing_of (p_type p) with
  | ByPointer => true
  | _ => false
  end.

Definition output_params (d : fundecl) : list param :=
  filter is_output (f_params d).

Definition has_type (t : ctype) (p : param) : bool := ctype_eqb (p_type p) t.

(** The plot count is the parameter the source calls [nbplots]. *)
Definition takes_plot_count (d : fundecl) : bool :=
  existsb (fun p => String.eqb (p_name p) "nbplots") (f_params d).

(** The graphics context is passed as [const pGEcontext]. *)
Definition takes_context (d : fundecl) : bool :=
  existsb (fun p => names_context (p_type p)) (f_params d).

(** A function can be entered in a [.Call] registration table
    ([R_CallMethodDef]: name, address, number of arguments) when its symbol
    is exported and it maps [numArgs] SEXPs to a SEXP. *)
Definition dot_Call_compatible (d : fundecl) (numArgs : nat) : bool :=
  linkage_eqb (f_linkage d) External
  && ctype_eqb (f_ret d) SEXP
  && forallb (has_type SEXP) (f_params d)
  && Nat.eqb (arity d) numArgs.

(** ** The device operations

    The operations of the graphics-engine callback table, each with the
    declaration of the header that bears its name. *)
Inductive operation : Type :=
| OpActivate | OpCircle | OpLine | OpPolyline | OpPolygon | OpRect | OpText
| OpNewPage | OpClose | OpClip | OpMetricInfo | OpSize | OpStrWidth.

Definition callback (op : operation) : fundecl :=
  match op with
  | OpActivate => PPTX_activate
  | OpCircle => PPTX_Circle
  | OpLine => PPTX_Line
  | OpPolyline => PPTX_Polyline
  | OpPolygon => PPTX_Polygon
  | OpRect => PPTX_Rect
  | OpText => PPTX_Text
  | OpNewPage => PPTX_NewPage
  | OpClose => PPTX_Close
  | OpClip => PPTX_Clip
  | OpMetricInfo => PPTX_MetricInfo
  | OpSize => PPTX_Size
  | OpStrWidth => PPTX_StrWidth
  end.

Definition all_operations : list operation :=
  [ OpActivate; OpCircle; OpLine; OpPolyline; OpPolygon; OpRect; OpText;
    OpNewPage; OpClose; OpClip; OpMetricInfo; OpSize; OpStrWidth ].

(** The per-primitive and lifecycle operations: all but [strWidth]. *)
Definition primitive_and_lifecycle : list operation :=
  [ OpActivate; OpCircle; OpLine; OpPolyline; OpPolygon; OpRect; OpText;
    OpNewPage; OpClose; OpClip; OpMetricInfo; OpSize ].

(** ** Values a call can hand back *)

Definition double : Type := spec_float.

Inductive cvalue : Type :=
| Vdouble (d : double)
| Vint (i : Z)
| Vbool (b : bool)
| Vaddr (a : Z).

Inductive kind : Type := Kvoid | Kdouble | Kint | Kbool | Kaddr.

(** Modelled from the spec: the host headers that define the typedefs are
    not in src/.  [Rboolean] is the host's boolean ("a false/failure
    indicator"); [SEXP], [pDevDesc] and [pGEcontext] are "opaque
    host-defined handles", that is, addresses. *)
Definition host_typedef (name : string) : option kind :=
  if String.eqb name "Rboolean" then Some Kbool
  else if String.eqb name "SEXP" then Some Kaddr
  else if String.eqb name "pDevDesc" then Some Kaddr
  else if String.eqb name "pGEcontext" then Some Kaddr
  else None.

Fixpoint kind_of (t : ctype) : option kind :=
  match t with
  | Tvoid => Some Kvoid
  | Tdouble => Some Kdouble
  | Tint | Tchar => Some Kint
  | Tnamed name => host_typedef name
  | Tconst t' => kind_of t'
  | Tptr _ => Some Kaddr
  end.

(** A host handle is one of the host's opaque typedefs of address kind. *)
Definition is_host_handle (t : ctype) : bool :=
  match t with
  | Tnamed name =>
      match host_typedef name with Some Kaddr => true | _ => false end
  | _ => false
  end.

(** [returned t r]: [r] is a possible outcome of returning from a function
    declared with return type [t]; a [void] function hands back nothing. *)
Definition returned (t : ctype) (r : option cvalue) : bool :=
  match kind_of t, r with
  | Some Kvoid, None => true
  | Some Kdouble, Some (Vdouble _) => true
  | Some Kint, Some (Vint i) => ((- 2 ^ 31 <=? i) && (i <? 2 ^ 31))%Z
  | Some Kbool, Some (Vbool _) => true
  | Some Kaddr, Some (Vaddr _) => true
  | _, _ => false
  end.

(** A return type can carry an indicator (success against failure) when a
    caller can tell two outcomes apart. *)
Definition can_signal (t : ctype) : Prop :=
  exists r r' : option cvalue,
    returned t r = true /\ returned t r' = true /\ r <> r'.

Definition carries_value (t : ctype) : bool :=
  match kind_of t with
  | Some Kvoid | None => false
  | Some _ => true
  end.

Module Model.

(** Modelled from the spec: the bodies of the callbacks live in the
    implementation file, which is not in src/.  Section 4.1 of the spec
    gives each operation's side effect: polyline and polygon append a
    shape, built from the geometry, to the current page; text appends a
    text run; clip sets the clipping region for subsequent primitives.  The
    device-specific state block keeps the current page and the clipping
    region. *)
Inductive item : Type :=
| Polyline (vertices : list (double * double))
| Polygon (vertices : list (double * double))
| TextRun (x y : double) (str : string) (rot hadj : double).

Record bbox : Type := mkBox { bx0 : double; bx1 : double; by0 : double; by1 : double }.

Record device : Type := mkDevice {
  page : list item;
  clip_region : option bbox
}.

Section Callbacks.

(** The graphics context is the host's; the model does not look inside. *)
Variable gcontext : Type.

(** Modelled from the spec: text "appends text run". *)
Definition Text (x y : double) (str : string) (rot hadj : double)
    (gc : gcontext) (dev : device) : device :=
  mkDevice (page dev ++ [TextRun x y str rot hadj]) (clip_region dev).

(** Modelled from the spec: clip "sets clipping region for subsequent
    primitives". *)
Definition Clip (x0 x1 y0 y1 : double) (dev : device) : device :=
  mkDevice (page dev) (Some (mkBox x0 x1 y0 y1)).

End Callbacks.

End Model.

(** ** Calls of a declared function *)

Definition takes_device (d : fundecl) : bool :=
  existsb (has_type pDevDesc) (f_params d).

Definition exported (h : list fundecl) : list fundecl :=
  filter (fun d => linkage_eqb (f_linkage d) External) h.

(** A call initialises the parameters from the arguments by position. *)
Definition bind_args {A : Type} (d : fundecl) (args : list A) : list (string * A) :=
  combine (param_names d) args.

Fixpoint arg_of {A : Type} (x : string) (b : list (string * A)) : option A :=
  match b with
  | [] => None
  | (y, v) :: b' => if String.eqb x y then Some v else arg_of x b'
  end.

(** A [const] on the parameter itself is no part of the function's type:
    [const pGEcontext gc] takes a [pGEcontext]. *)
Definition unqualified (t : ctype) : ctype :=
  match t with
  | Tconst t' => t'
  | _ => t
  end.

Fixpoint types_match (ps ts : list ctype) : bool :=
  match ps, ts with
  | [], [] => true
  | p :: ps', t :: ts' =>
      ctype_eqb (unqualified p) (unqualified t) && types_match ps' ts'
  | _, _ => false
  end.

(** [accepts d ts]: arguments of the types [ts], in this order, are of the
    types [d] declares for its parameters. *)
Definition accepts (d : fundecl) (ts : list ctype) : bool :=
  types_match (param_types d) ts.

(** [mentions name t]: the typedef [name] occurs in [t], under any number
    of [const] and [*]. *)
Fixpoint mentions (name : string) (t : ctype) : bool :=
  match t with
  | Tnamed n => String.eqb n name
  | Tconst t' | Tptr t' => mentions name t'
  | _ => false
  end.

Fixpoint nodupb (l : list string) : bool :=
  match l with
  | [] => true
  | x :: l' => negb (existsb (String.eqb x) l') && nodupb l'
  end.

(** ** Helper lemmas *)

Lemma ctype_eqb_eq (a b : ctype) : ctype_eqb a b = true <-> a = b.
Proof.
  unfold ctype_eqb. destruct (ctype_eq_dec a b) as [e | ne]; split; intro H.
  - exact e.
  - reflexivity.
  - discriminate H.
  - contradiction.
Qed.

Lemma returned_void (t : ctype) (r : option cvalue) :
  kind_of t = Some Kvoid -> (returned t r = true <-> r = None).
Proof.
  intro Hk. unfold returned. rewrite Hk. destruct r as [v |]; split; intro H.
  - discriminate H.
  - discriminate H.
  - reflexivity.
  - reflexivity.
Qed.

Lemma returned_double (t : ctype) (r : option cvalue) :
  kind_of t = Some Kdouble ->
  (returned t r = true <-> exists w : double, r = Some (Vdouble w)).
Proof.
  intro Hk. unfold returned. rewrite Hk. split.
  - destruct r as [[w | i | b | a] |]; intro H; try discriminate H.
    exists w. reflexivity.
  - intros [w ->]. reflexivity.
Qed.

Lemma can_signal_carries (t : ctype) : can_signal t <-> carries_value t = true.
Proof.
  unfold can_signal, carries_value, returned. split.
  - intros (r & r' & Hr & Hr' & Hne).
    destruct (kind_of t) as [[] |]; try reflexivity.
    + destruct r; [discriminate Hr |]. destruct r'; [discriminate Hr' |].
      exfalso. apply Hne. reflexivity.
    + destruct r; discriminate Hr.
  - destruct (kind_of t) as [[] |]; intro H; try discriminate H.
    + exists (Some (Vdouble (S754_zero false))), (Some (Vdouble S754_nan)).
      repeat split; discriminate.
    + exists (Some (Vint 0)), (Some (Vint 1)). repeat split; discriminate.
    + exists (Some (Vbool true)), (Some (Vbool false)).
      repeat split; discriminate.
    + exists (Some (Vaddr 0)), (Some (Vaddr 1)). repeat split; discriminate.
Qed.

(** ** The construction entry points *)

(** C1, as stated, fails: no declaration of the header both takes a plot
    count and returns a host handle.  [GE_PPTXDevice] and
    [PPTXDeviceDriver] take [nbplots] and return [void] and [Rboolean];
    [R_PPTX_Device] returns a [SEXP] and has no plot count. *)
Lemma no_constructor_with_plot_count_and_handle :
  ~ (exists d : fundecl,
        In d PPTX_h /\ takes_plot_count d = true /\
        is_host_handle (f_ret d) = true).
Proof.
  intros (d & Hin & Hpc & Hh). simpl in Hin.
  repeat (destruct Hin as [<- | Hin];
          [first [discriminate Hpc | discriminate Hh] |]).
  exact Hin.
Qed.

(** C1, amended: construction is declared as two functions.
    [GE_PPTXDevice] is given filename, page dimensions, offsets, point
    size, plot count and font family and returns nothing; [R_PPTX_Device]
    is given eight host values, none of them a plot count, and returns a
    host handle; no declaration does both. *)
Theorem construction_entry_points :
  f_params GE_PPTXDevice =
    [ const_char_ptr $ "filename"; double_ptr $ "width"; double_ptr $ "height";
      double_ptr $ "offx"; double_ptr $ "offy"; Tdouble $ "ps";
      Tint $ "nbplots"; const_char_ptr $ "fontfamily" ]%decl /\
  find_param "nbplots" GE_PPTXDevice = Some Tint /\
  f_ret GE_PPTXDevice = Tvoid /\
  is_host_handle (f_ret GE_PPTXDevice) = false /\
  param_names R_PPTX_Device =
    [ "filename"; "width"; "height"; "offx"; "offy"; "pointsize";
      "fontfamily"; "env" ] /\
  param_types R_PPTX_Device =
    [ SEXP; SEXP; SEXP; SEXP; SEXP; SEXP; SEXP; SEXP ] /\
  takes_plot_count R_PPTX_Device = false /\
  f_ret R_PPTX_Device = SEXP /\
  is_host_handle (f_ret R_PPTX_Device) = true /\
  forallb (fun d => negb (takes_plot_count d && is_host_handle (f_ret d)))
    PPTX_h = true.
Proof. repeat split. Qed.

(** C2: [R_PPTX_Device] is declared with eight [SEXP] parameters, in the
    order filename, width, height, offx, offy, pointsize, fontfamily, env;
    it is an exported symbol returning [SEXP], so it fits a [.Call]
    registration entry, and only one whose argument count is eight. *)
Theorem R_PPTX_Device_arity :
  f_params R_PPTX_Device =
    [ SEXP $ "filename"; SEXP $ "width"; SEXP $ "height"; SEXP $ "offx";
      SEXP $ "offy"; SEXP $ "pointsize"; SEXP $ "fontfamily";
      SEXP $ "env" ]%decl /\
  arity R_PPTX_Device = 8 /\
  f_linkage R_PPTX_Device = External /\
  f_ret R_PPTX_Device = SEXP /\
  find_decl "R_PPTX_Device" PPTX_h = Some R_PPTX_Device /\
  forall numArgs : nat,
    dot_Call_compatible R_PPTX_Device numArgs = true <-> numArgs = 8.
Proof.
  repeat split.
  - unfold dot_Call_compatible. rewrite andb_true_iff. intros [_ H].
    apply Nat.eqb_eq in H. symmetry. exact H.
  - intros ->. reflexivity.
Qed.

(** ** Return types and failure indication *)

(** C3, as stated, fails: the strWidth callback is declared to return a
    [double], a type that can carry an indicator (zero against NaN, say),
    so the driver-setup function is not the only declared function whose
    return type can. *)
Lemma strWidth_return_can_signal :
  ~ (f_ret PPTXDeviceDriver = Rboolean /\
     forall op : operation,
       callback op <> PPTXDeviceDriver -> ~ can_signal (f_ret (callback op))).
Proof.
  intros [_ H]. apply (H OpStrWidth).
  - discriminate.
  - apply can_signal_carries. reflexivity.
Qed.

(** C3, amended: [PPTXDeviceDriver] is declared to return [Rboolean], so a
    fatal construction error can be signalled by returning false, and it is
    the only declaration that returns [Rboolean]; of the callbacks, strWidth
    alone has a return type that can carry an indicator ([double]); the
    three declarations that return a value are [PPTXDeviceDriver],
    [PPTX_StrWidth] and [R_PPTX_Device]. *)
Theorem driver_setup_returns_Rboolean :
  f_ret PPTXDeviceDriver = Rboolean /\
  kind_of (f_ret PPTXDeviceDriver) = Some Kbool /\
  returned (f_ret PPTXDeviceDriver) (Some (Vbool false)) = true /\
  can_signal (f_ret PPTXDeviceDriver) /\
  filter (fun d => ctype_eqb (f_ret d) Rboolean) PPTX_h = [PPTXDeviceDriver] /\
  (forall op : operation,
     can_signal (f_ret (callback op)) <-> op = OpStrWidth) /\
  f_ret PPTX_StrWidth = Tdouble /\
  filter (fun d => carries_value (f_ret d)) PPTX_h =
    [PPTXDeviceDriver; PPTX_StrWidth; R_PPTX_Device].
Proof.
  repeat split.
  - apply can_signal_carries. reflexivity.
  - intro H. apply can_signal_carries in H.
    destruct op; try discriminate H. reflexivity.
  - intros ->. apply can_signal_carries. reflexivity.
Qed.

(** C8: each of the twelve per-primitive and lifecycle callbacks
    (activate, circle, line, polyline, polygon, rect, text, newPage, close,
    clip, metricInfo, size) is declared to return [void]; every call of one
    hands back nothing, so its return cannot tell success from failure. *)
Theorem primitive_callbacks_return_void (op : operation) :
  In op primitive_and_lifecycle ->
  f_ret (callback op) = Tvoid /\
  (forall r : option cvalue,
     returned (f_ret (callback op)) r = true <-> r = None) /\
  ~ can_signal (f_ret (callback op)).
Proof.
  intro Hin.
  assert (Hv : f_ret (callback op) = Tvoid).
  { simpl in Hin.
    repeat (destruct Hin as [<- | Hin]; [reflexivity |]). contradiction. }
  split; [exact Hv |]. rewrite Hv. split.
  - intro r. apply returned_void. reflexivity.
  - intro H. apply can_signal_carries in H. discriminate H.
Qed.

Lemma primitive_callbacks_return_void_witness :
  In OpCircle primitive_and_lifecycle /\
  f_ret (callback OpCircle) = Tvoid /\
  (forall r : option cvalue,
     returned (f_ret (callback OpCircle)) r = true <-> r = None) /\
  ~ can_signal (f_ret (callback OpCircle)).
Proof.
  assert (Hin : In OpCircle primitive_and_lifecycle)
    by (simpl; right; left; reflexivity).
  split; [exact Hin |].
  exact (primitive_callbacks_return_void OpCircle Hin).
Defined.

Lemma primitive_and_lifecycle_names :
  map (fun op => f_name (callback op)) primitive_and_lifecycle =
    [ "PPTX_activate"; "PPTX_Circle"; "PPTX_Line"; "PPTX_Polyline";
      "PPTX_Polygon"; "PPTX_Rect"; "PPTX_Text"; "PPTX_NewPage"; "PPTX_Close";
      "PPTX_Clip"; "PPTX_MetricInfo"; "PPTX_Size" ].
Proof. reflexivity. Qed.

(** ** Individual callbacks *)

(** C4: [PPTX_Text] takes, in this order, the position [x], [y], the string
    [str], the rotation [rot], the horizontal adjustment [hadj], the
    graphics context and the device handle; it returns no value and has no
    output parameter; in the model of its body the one change to the device
    is the text run appended to the page. *)
Theorem PPTX_Text_declaration :
  f_params PPTX_Text =
    [ Tdouble $ "x"; Tdouble $ "y"; const_char_ptr $ "str"; Tdouble $ "rot";
      Tdouble $ "hadj"; Tconst pGEcontext $ "gc"; pDevDesc $ "dev" ]%decl /\
  arity PPTX_Text = 7 /\
  f_ret PPTX_Text = Tvoid /\
  (forall r : option cvalue,
     returned (f_ret PPTX_Text) r = true <-> r = None) /\
  output_params PPTX_Text = [] /\
  forall (gcontext : Type) (x y : double) (str : string) (rot hadj : double)
         (gc : gcontext) (dev : Model.device),
    Model.page (Model.Text gcontext x y str rot hadj gc dev) =
      (Model.page dev ++ [Model.TextRun x y str rot hadj])%list /\
    Model.clip_region (Model.Text gcontext x y str rot hadj gc dev) =
      Model.clip_region dev.
Proof.
  repeat split.
  - apply returned_void. reflexivity.
  - apply returned_void. reflexivity.
Qed.

(** C5: [PPTX_MetricInfo] takes the character code [c], the graphics
    context and the device handle as inputs, declares exactly three output
    parameters, the [double*] [ascent], [descent] and [width], and returns
    no value directly. *)
Theorem PPTX_MetricInfo_declaration :
  f_params PPTX_MetricInfo =
    [ Tint $ "c"; Tconst pGEcontext $ "gc"; double_ptr $ "ascent";
      double_ptr $ "descent"; double_ptr $ "width"; pDevDesc $ "dev" ]%decl /\
  filter (fun p => negb (is_output p)) (f_params PPTX_MetricInfo) =
    [ Tint $ "c"; Tconst pGEcontext $ "gc"; pDevDesc $ "dev" ]%decl /\
  output_params PPTX_MetricInfo =
    [ double_ptr $ "ascent"; double_ptr $ "descent";
      double_ptr $ "width" ]%decl /\
  passing_of double_ptr = ByPointer /\
  f_ret PPTX_MetricInfo = Tvoid /\
  forall r : option cvalue,
    returned (f_ret PPTX_MetricInfo) r = true <-> r = None.
Proof.
  repeat split.
  - apply returned_void. reflexivity.
  - apply returned_void. reflexivity.
Qed.

(** C6: [PPTX_StrWidth] takes the string, the graphics context and the
    device handle, declares no output parameter, and returns a [double]:
    every return hands the width back as the function's value. *)
Theorem PPTX_StrWidth_declaration :
  f_params PPTX_StrWidth =
    [ const_char_ptr $ "str"; Tconst pGEcontext $ "gc";
      pDevDesc $ "dev" ]%decl /\
  output_params PPTX_StrWidth = [] /\
  f_ret PPTX_StrWidth = Tdouble /\
  forall r : option cvalue,
    returned (f_ret PPTX_StrWidth) r = true <->
    exists w : double, r = Some (Vdouble w).
Proof.
  repeat split.
  - apply returned_double. reflexivity.
  - apply returned_double. reflexivity.
Qed.

(** C7: [PPTX_Clip] takes four [double] coordinates and the device handle,
    and no graphics context; it returns nothing and has no output
    parameter; in the model of its body the one change to the device is
    the clipping region, which a later primitive leaves in place. *)
Theorem PPTX_Clip_declaration :
  f_params PPTX_Clip =
    [ Tdouble $ "x0"; Tdouble $ "x1"; Tdouble $ "y0"; Tdouble $ "y1";
      pDevDesc $ "dev" ]%decl /\
  arity PPTX_Clip = 5 /\
  takes_context PPTX_Clip = false /\
  f_ret PPTX_Clip = Tvoid /\
  (forall r : option cvalue,
     returned (f_ret PPTX_Clip) r = true <-> r = None) /\
  output_params PPTX_Clip = [] /\
  forall (x0 x1 y0 y1 : double) (dev : Model.device),
    Model.clip_region (Model.Clip x0 x1 y0 y1 dev) =
      Some (Model.mkBox x0 x1 y0 y1) /\
    Model.page (Model.Clip x0 x1 y0 y1 dev) = Model.page dev /\
    forall (gcontext : Type) (x y : double) (str : string)
           (rot hadj : double) (gc : gcontext),
      Model.clip_region
        (Model.Text gcontext x y str rot hadj gc (Model.Clip x0 x1 y0 y1 dev)) =
        Some (Model.mkBox x0 x1 y0 y1).
Proof.
  repeat split.
  - apply returned_void. reflexivity.
  - apply returned_void. reflexivity.
Qed.

(** ** Parameter passing on the construction path *)

(** C10: in [GE_PPTXDevice] and in [PPTXDeviceDriver] the page dimensions
    and offsets ([width], [height], [offx], [offy]) are [double*], pointers
    to non-constant data, so a store by the construction path reaches the
    caller's variables; the point size [ps] and the plot count [nbplots] are
    passed by value. *)
Theorem construction_parameter_passing (d : fundecl) :
  In d [GE_PPTXDevice; PPTXDeviceDriver] ->
  map (fun x => find_param x d) ["width"; "height"; "offx"; "offy"] =
    [Some double_ptr; Some double_ptr; Some double_ptr; Some double_ptr] /\
  passing_of double_ptr = ByPointer /\
  (forall old v : double, caller_sees (passing_of double_ptr) old v = v) /\
  find_param "ps" d = Some Tdouble /\
  find_param "nbplots" d = Some Tint /\
  passing_of Tdouble = ByValue /\
  passing_of Tint = ByValue /\
  (forall old v : double, caller_sees (passing_of Tdouble) old v = old) /\
  (forall old v : Z, caller_sees (passing_of Tint) old v = old).
Proof.
  intros [<- | [<- | []]]; repeat split.
Qed.

Lemma construction_parameter_passing_witness :
  In GE_PPTXDevice [GE_PPTXDevice; PPTXDeviceDriver] /\
  map (fun x => find_param x GE_PPTXDevice)
    ["width"; "height"; "offx"; "offy"] =
    [Some double_ptr; Some double_ptr; Some double_ptr; Some double_ptr] /\
  find_param "ps" GE_PPTXDevice = Some Tdouble /\
  find_param "nbplots" GE_PPTXDevice = Some Tint.
Proof.
  assert (Hin : In GE_PPTXDevice [GE_PPTXDevice; PPTXDeviceDriver])
    by (simpl; left; reflexivity).
  split; [exact Hin |].
  destruct (construction_parameter_passing GE_PPTXDevice Hin)
    as (Hdims & _ & _ & Hps & Hnb & _).
  split; [exact Hdims |]. split; [exact Hps | exact Hnb].
Defined.

(** ** Invariants of the whole header *)

Ltac in_cases H :=
  simpl in H;
  repeat match type of H with
         | _ \/ _ => destruct H as [H | H]
         end;
  try contradiction; subst.

Lemma nodupb_NoDup (l : list string) : nodupb l = true -> NoDup l.
Proof.
  induction l as [| x l IH]; simpl; intro H.
  - constructor.
  - apply andb_true_iff in H. destruct H as [Hx Hl]. constructor.
    + intro Hin. apply negb_true_iff in Hx.
      assert (He : existsb (String.eqb x) l = true).
      { apply existsb_exists. exists x. split; [exact Hin |].
        apply String.eqb_refl. }
      rewrite He in Hx. discriminate Hx.
    + apply IH. exact Hl.
Qed.

Lemma find_decl_sound (h : list fundecl) (name : string) (d : fundecl) :
  find_decl name h = Some d -> In d h /\ f_name d = name.
Proof.
  unfold find_decl. intro H. apply find_some in H. destruct H as [Hin He].
  split; [exact Hin |]. apply String.eqb_eq. exact He.
Qed.

Lemma find_decl_complete (h : list fundecl) :
  NoDup (map f_name h) ->
  forall d : fundecl, In d h -> find_decl (f_name d) h = Some d.
Proof.
  unfold find_decl. induction h as [| e h IH]; simpl; intros Hnd d Hin.
  - contradiction.
  - inversion Hnd as [| ? ? Hnotin Hnd']; subst.
    destruct Hin as [-> | Hin].
    + rewrite String.eqb_refl. reflexivity.
    + destruct (String.eqb (f_name e) (f_name d)) eqn:He.
      * apply String.eqb_eq in He. exfalso. apply Hnotin. rewrite He.
        apply in_map. exact Hin.
      * apply IH; assumption.
Qed.

Lemma arg_of_combine {A : Type} (names : list string) :
  NoDup names ->
  forall (args : list A) (i : nat) (x : string),
    nth_error names i = Some x ->
    (i < length args)%nat ->
    arg_of x (combine names args) = nth_error args i.
Proof.
  induction names as [| y names IH]; intros Hnd args i x Hx Hi.
  - destruct i; discriminate Hx.
  - inversion Hnd as [| ? ? Hnotin Hnd']; subst.
    destruct args as [| a args]; [simpl in Hi; lia |].
    destruct i as [| i]; simpl in *.
    + injection Hx as ->. rewrite String.eqb_refl. reflexivity.
    + destruct (String.eqb x y) eqn:He.
      * apply String.eqb_eq in He. subst y. exfalso. apply Hnotin.
        apply (nth_error_In names i). exact Hx.
      * apply IH; [exact Hnd' | exact Hx | lia].
Qed.

Lemma types_match_length (ps ts : list ctype) :
  types_match ps ts = true -> length ts = length ps.
Proof.
  revert ts. induction ps as [| p ps IH]; intros [| t ts]; simpl; intro H;
    try discriminate H.
  - reflexivity.
  - apply andb_true_iff in H. destruct H as [_ H]. f_equal. apply IH. exact H.
Qed.

Lemma PPTX_h_names_distinct : NoDup (map f_name PPTX_h).
Proof. apply nodupb_NoDup. reflexivity. Qed.

Lemma PPTX_h_param_names_distinct (d : fundecl) :
  In d PPTX_h -> NoDup (param_names d).
Proof. intro H. in_cases H; apply nodupb_NoDup; reflexivity. Qed.

(** X1: the names declared in the header are pairwise distinct, so looking a
    declaration up by name finds exactly the declarations of the header,
    each under its own name. *)
Theorem find_decl_PPTX_h (name : string) (d : fundecl) :
  find_decl name PPTX_h = Some d <-> (In d PPTX_h /\ f_name d = name).
Proof.
  split.
  - apply find_decl_sound.
  - intros [Hin <-]. apply find_decl_complete.
    + exact PPTX_h_names_distinct.
    + exact Hin.
Qed.

(** X2: a declaration of the header is [static] exactly when it takes the
    device descriptor: the functions that work on a device are local to the
    translation unit, and the exported symbols, which are [GE_PPTXDevice]
    and [R_PPTX_Device] and no other, never receive one. *)
Theorem static_iff_takes_device (d : fundecl) :
  In d PPTX_h ->
  (f_linkage d = Static <-> takes_device d = true) /\
  (In d (exported PPTX_h) <-> takes_device d = false) /\
  (In d (exported PPTX_h) <-> (d = GE_PPTXDevice \/ d = R_PPTX_Device)).
Proof.
  intro H. in_cases H; (split; [| split]; split; intro H);
    solve [ reflexivity | discriminate H
          | in_cases H; discriminate H
          | destruct H as [H | H]; discriminate H
          | simpl; tauto ].
Qed.

Lemma static_iff_takes_device_witness :
  In PPTX_Circle PPTX_h /\
  (f_linkage PPTX_Circle = Static <-> takes_device PPTX_Circle = true) /\
  (In PPTX_Circle (exported PPTX_h) <-> takes_device PPTX_Circle = false) /\
  (In PPTX_Circle (exported PPTX_h) <->
   (PPTX_Circle = GE_PPTXDevice \/ PPTX_Circle = R_PPTX_Device)).
Proof.
  assert (Hin : In PPTX_Circle PPTX_h) by (simpl; tauto).
  split; [exact Hin |]. exact (static_iff_takes_device PPTX_Circle Hin).
Defined.

(** X3: every device callback takes the device descriptor as its last
    parameter, [pDevDesc dev], and takes no other parameter of that type. *)
Theorem callbacks_take_device_last (op : operation) :
  exists front : list param,
    f_params (callback op) = (front ++ [pDevDesc $ "dev"]%decl)%list /\
    forallb (fun p => negb (has_type pDevDesc p)) front = true.
Proof.
  destruct op; simpl;
    match goal with
    | |- exists front, ?l = _ /\ _ => exists (removelast l)
    end; split; reflexivity.
Qed.

(** X4: in every declaration of the header, a parameter whose type
    mentions [pGEcontext] at all, under any [const] or [*], or whose name is
    [gc], is declared exactly [const pGEcontext gc].  The [const] is on the
    handle itself: for the function's type the parameter is a plain
    [pGEcontext]. *)
Theorem context_is_const_gc (d : fundecl) (p : param) :
  In d PPTX_h -> In p (f_params d) ->
  mentions "pGEcontext" (p_type p) = true \/ p_name p = "gc" ->
  p = (Tconst pGEcontext $ "gc")%decl /\
  unqualified (p_type p) = pGEcontext.
Proof.
  intros Hd Hp. in_cases Hd; in_cases Hp;
    (intros [H | H]; solve [split; reflexivity | discriminate H]).
Qed.

Lemma context_is_const_gc_witness :
  In PPTX_NewPage PPTX_h /\
  In (Tconst pGEcontext $ "gc")%decl (f_params PPTX_NewPage) /\
  mentions "pGEcontext" (p_type (Tconst pGEcontext $ "gc")%decl) = true /\
  (Tconst pGEcontext $ "gc")%decl = (Tconst pGEcontext $ "gc")%decl /\
  unqualified (p_type (Tconst pGEcontext $ "gc")%decl) = pGEcontext.
Proof.
  assert (Hd : In PPTX_NewPage PPTX_h) by (simpl; tauto).
  assert (Hp : In (Tconst pGEcontext $ "gc")%decl (f_params PPTX_NewPage))
    by (simpl; tauto).
  assert (Hm : mentions "pGEcontext"
                 (p_type (Tconst pGEcontext $ "gc")%decl) = true)
    by reflexivity.
  split; [exact Hd |]. split; [exact Hp |]. split; [exact Hm |].
  exact (context_is_const_gc PPTX_NewPage _ Hd Hp (or_introl Hm)).
Defined.

(** X5: the header gives its parameters exactly seven types: [double],
    [int], [double*], [const char*], [pDevDesc], [const pGEcontext] and
    [SEXP].  So the only types spelled with a [*] are [double*] and
    [const char*]: no parameter is a [char*], an [int*] or a pointer to a
    pointer, and the host's handles are passed under their typedef names. *)
Theorem parameter_type_vocabulary (t : ctype) :
  (exists (d : fundecl) (p : param),
      In d PPTX_h /\ In p (f_params d) /\ p_type p = t) <->
  In t [ Tdouble; Tint; double_ptr; const_char_ptr; pDevDesc;
         Tconst pGEcontext; SEXP ].
Proof.
  split.
  - intros (d & p & Hd & Hp & <-).
    in_cases Hd; in_cases Hp; simpl; tauto.
  - intro H. in_cases H.
    + exists PPTX_Circle, (Tdouble $ "x")%decl. simpl. tauto.
    + exists PPTX_Polyline, (Tint $ "n")%decl. simpl. tauto.
    + exists PPTX_Size, (double_ptr $ "left")%decl. simpl. tauto.
    + exists PPTX_Text, (const_char_ptr $ "str")%decl. simpl. tauto.
    + exists PPTX_Close, (pDevDesc $ "dev")%decl. simpl. tauto.
    + exists PPTX_NewPage, (Tconst pGEcontext $ "gc")%decl. simpl. tauto.
    + exists R_PPTX_Device, (SEXP $ "env")%decl. simpl. tauto.
Qed.

(** X6: [PPTX_Rect] and [PPTX_Clip] both start with four [double]s named
    [x0], [x1], [y0], [y1], but in different orders: rect takes the corners
    [(x0, y0)], [(x1, y1)], clip takes the extents [x0], [x1], [y0], [y1].
    The same four values passed in the same order therefore bind [x1] and
    [y0] the other way round, and the types do not tell the two apart. *)
Theorem rect_clip_argument_order (a b c e gc dev : cvalue) :
  firstn 4 (param_types PPTX_Rect) = firstn 4 (param_types PPTX_Clip) /\
  arg_of "x0" (bind_args PPTX_Rect [a; b; c; e; gc; dev]) = Some a /\
  arg_of "y0" (bind_args PPTX_Rect [a; b; c; e; gc; dev]) = Some b /\
  arg_of "x1" (bind_args PPTX_Rect [a; b; c; e; gc; dev]) = Some c /\
  arg_of "y1" (bind_args PPTX_Rect [a; b; c; e; gc; dev]) = Some e /\
  arg_of "x0" (bind_args PPTX_Clip [a; b; c; e; dev]) = Some a /\
  arg_of "x1" (bind_args PPTX_Clip [a; b; c; e; dev]) = Some b /\
  arg_of "y0" (bind_args PPTX_Clip [a; b; c; e; dev]) = Some c /\
  arg_of "y1" (bind_args PPTX_Clip [a; b; c; e; dev]) = Some e.
Proof. repeat split. Qed.

(** X7: the driver-setup function takes what the C-level constructor takes,
    in the same order, between a device descriptor and an environment:
    arguments of the constructor's parameter types, put after a [dev] and
    before an [env], are accepted by [PPTXDeviceDriver] exactly when [dev]
    is a [pDevDesc] and [env] a [SEXP].  The constructor itself declares no
    [SEXP] parameter from which to take that environment. *)
Theorem driver_extends_constructor (dev_t env_t : ctype) :
  (accepts PPTXDeviceDriver
     (dev_t :: param_types GE_PPTXDevice ++ [env_t])%list = true <->
   (unqualified dev_t = pDevDesc /\ unqualified env_t = SEXP)) /\
  find_param "env" PPTXDeviceDriver = Some SEXP /\
  find_param "env" R_PPTX_Device = Some SEXP /\
  find_param "env" GE_PPTXDevice = None /\
  existsb (has_type SEXP) (f_params GE_PPTXDevice) = false.
Proof.
  split; [| repeat split].
  unfold accepts. simpl. split.
  - intro H. apply andb_true_iff in H. destruct H as [Hd He].
    apply andb_true_iff in He. destruct He as [He _].
    apply ctype_eqb_eq in Hd. apply ctype_eqb_eq in He.
    split; symmetry; assumption.
  - intros [Hd He]. rewrite Hd, He. reflexivity.
Qed.

(** X8: [R_PPTX_Device] is the only declaration of the header that fits a
    [.Call] registration entry, and only with eight arguments; the other
    exported function, [GE_PPTXDevice], takes C values and does not. *)
Theorem only_R_PPTX_Device_is_dot_Call (d : fundecl) (numArgs : nat) :
  In d PPTX_h -> dot_Call_compatible d numArgs = true ->
  d = R_PPTX_Device /\ numArgs = 8.
Proof.
  intro H. in_cases H; unfold dot_Call_compatible; intro Hc;
    try discriminate Hc.
  split; [reflexivity |].
  apply andb_true_iff in Hc. destruct Hc as [_ Hc].
  apply Nat.eqb_eq in Hc. symmetry. exact Hc.
Qed.

Lemma only_R_PPTX_Device_is_dot_Call_witness :
  In R_PPTX_Device PPTX_h /\
  dot_Call_compatible R_PPTX_Device 8 = true /\
  R_PPTX_Device = R_PPTX_Device /\ 8 = 8.
Proof.
  assert (Hin : In R_PPTX_Device PPTX_h) by (simpl; tauto).
  assert (Hc : dot_Call_compatible R_PPTX_Device 8 = true) by reflexivity.
  split; [exact Hin |]. split; [exact Hc |].
  exact (only_R_PPTX_Device_is_dot_Call R_PPTX_Device 8 Hin Hc).
Defined.

(** X9: within each declaration the parameter names are distinct, so in a
    call with as many arguments as parameters every parameter name stands
    for the argument at its own position. *)
Theorem bind_args_by_name {A : Type} (d : fundecl) (args : list A)
    (i : nat) (x : string) :
  In d PPTX_h ->
  length args = arity d ->
  nth_error (param_names d) i = Some x ->
  arg_of x (bind_args d args) = nth_error args i /\
  nth_error args i <> None.
Proof.
  intros Hd Hlen Hx.
  assert (Hi : (i < length args)%nat).
  { rewrite Hlen. unfold arity. rewrite <- (length_map p_name).
    apply nth_error_Some. unfold param_names in Hx. rewrite Hx. discriminate. }
  split.
  - unfold bind_args. apply arg_of_combine.
    + apply PPTX_h_param_names_distinct. exact Hd.
    + exact Hx.
    + exact Hi.
  - apply nth_error_Some. exact Hi.
Qed.

Lemma bind_args_by_name_witness :
  In PPTX_Text PPTX_h /\
  length [10; 20; 30; 40; 50; 60; 70]%nat = arity PPTX_Text /\
  nth_error (param_names PPTX_Text) 2 = Some "str" /\
  arg_of "str" (bind_args PPTX_Text [10; 20; 30; 40; 50; 60; 70]%nat) =
    nth_error [10; 20; 30; 40; 50; 60; 70]%nat 2 /\
  nth_error [10; 20; 30; 40; 50; 60; 70]%nat 2 <> None.
Proof.
  assert (Hd : In PPTX_Text PPTX_h) by (simpl; tauto).
  assert (Hl : length [10; 20; 30; 40; 50; 60; 70]%nat = arity PPTX_Text)
    by reflexivity.
  assert (Hx : nth_error (param_names PPTX_Text) 2 = Some "str")
    by reflexivity.
  split; [exact Hd |]. split; [exact Hl |]. split; [exact Hx |].
  exact (bind_args_by_name PPTX_Text _ 2 "str" Hd Hl Hx).
Defined.

